(** * Supermarket sales dashboard: the filter-and-aggregate pipeline of app.py

    The script loads a table of sales records once (a cached load), reads
    three sidebar widgets (regions, categories, a date range), selects the
    matching rows with a boolean mask and derives four KPIs and four chart
    tables from the selection.  This file embeds that pipeline (app.py,
    lines 68-156), proves the properties the specification states
    about it, and then further properties of the selection, the widgets'
    initial state, the KPIs and the table of the line chart.

    Conventions of the embedding:
    - a DataFrame is the list of its rows, in index order;
    - a column is the list of one field over the rows;
    - a missing cell (NaN, NaT) is [None];
    - a timestamp is the count of nanoseconds since 1970-01-01
      (datetime64[ns]); a calendar date is kept as the timestamp of its
      midnight, which is what [pd.to_datetime] makes of it at lines 89-90;
    - the dtype of the Sales column is a parameter: the table library
      infers it from the file, and the script only adds amounts;
    - a sum adds its cells from left to right, starting from zero.  On an
      exact dtype (integer amounts) that is the library's sum.  On float64
      the library adds in another order from eight cells on and compensates
      the sums of a group-by, so there the sums below are the library's on
      short columns and on groups of at most two rows only, and up to the
      sign of a zero.  The theorems
      that state the value of a sum are for exact dtypes; on float64 only
      the three rows of the sample [float_df] are evaluated. *)

From Stdlib Require Import ZArith Floats.
From stdpp Require Import gmap strings list sorting fin_maps.

(** ** Column dtypes *)

(** The conversion of an integer to float64 (round to nearest), for
    integers of less than 2^63 in absolute value. *)
Definition float_of_Z (z : Z) : float :=
  if (z <? 0)%Z then PrimFloat.opp (PrimFloat.of_uint63 (Uint63.of_Z (- z)))
  else PrimFloat.of_uint63 (Uint63.of_Z z).

(** A float64 sum, from left to right. *)
Definition fsum (l : list float) : float := foldl PrimFloat.add 0%float l.

(** What the script needs of the Sales dtype: the zero a sum starts from,
    addition, and the conversion to float64 (the mean of a column is a
    float64 whatever the dtype). *)
Class Numeric (A : Type) := {
  num_zero : A;
  num_add : A → A → A;
  num_to_float : A → float
}.

(** A dtype whose addition is exact: sums do not depend on the order or
    the grouping of the additions. *)
Class Exact (A : Type) `{Numeric A} : Prop := {
  num_add_assoc : ∀ x y z : A, num_add x (num_add y z) = num_add (num_add x y) z;
  num_add_comm : ∀ x y : A, num_add x y = num_add y x;
  num_add_zero_l : ∀ x : A, num_add num_zero x = x
}.

(** int64 columns whose sums stay within int64 (no wrap-around). *)
#[export] Instance Z_Numeric : Numeric Z :=
  {| num_zero := 0%Z; num_add := Z.add; num_to_float := float_of_Z |}.

#[export] Instance Z_Exact : Exact Z.
Proof. split; simpl; intros; lia. Defined.

(** float64 columns: IEEE 754 binary64 with round-to-nearest. *)
#[export] Instance float_Numeric : Numeric float :=
  {| num_zero := 0%float;
     num_add := PrimFloat.add;
     num_to_float := λ x, x |}.

(** ** Rows and frames *)

(** The columns of supermarket.csv the pipeline reads.  Region, Category
    and Ship Mode are labels: the library treats a missing label as one more
    value in [isin] and [unique], so they need no separate marker here. *)
Record row (A : Type) := Row {
  Region : string;
  Category : string;
  Order_Date : option Z;
  Ship_Mode : string;
  Sales : option A;
  Order_ID : option string;
  Customer_ID : option string
}.
Arguments Row {A}.
Arguments Region {A} _.
Arguments Category {A} _.
Arguments Order_Date {A} _.
Arguments Ship_Mode {A} _.
Arguments Sales {A} _.
Arguments Order_ID {A} _.
Arguments Customer_ID {A} _.

Abbreviation DataFrame A := (list (row A)).

(** [df["name"]]: one column of a frame. *)
Definition col {A B} (f : row A → B) (df : DataFrame A) : list B := f <$> df.

(** ** Exceptions *)

Inductive exn := IndexError | ValueError.

Inductive result (R : Type) :=
  | Ok (r : R)
  | Raise (e : exn).
Arguments Ok {R}.
Arguments Raise {R}.

#[export] Instance result_ret : MRet result := λ _ r, Ok r.
#[export] Instance result_bind : MBind result := λ _ _ k c,
  match c with Ok r => k r | Raise e => Raise e end.

(** [t[i]] on a tuple. *)
Definition getitem {B} (t : list B) (i : nat) : result B :=
  match t !! i with
  | Some x => Ok x
  | None => Raise IndexError
  end.

(** ** The column operations the script calls *)

(** [Series.isin(values)] *)
Definition isin (c : list string) (values : list string) : list bool :=
  (λ v, bool_decide (v ∈ values)) <$> c.

(** [Series >= t] and [Series <= t] on a datetime column: a comparison
    with NaT is False. *)
Definition ge_ts (c : list (option Z)) (t : Z) : list bool :=
  (λ d, match d with Some x => bool_decide (t ≤ x)%Z | None => false end) <$> c.

Definition le_ts (c : list (option Z)) (t : Z) : list bool :=
  (λ d, match d with Some x => bool_decide (x ≤ t)%Z | None => false end) <$> c.

(** [m1 & m2] on boolean columns. *)
Definition mask_and (m1 m2 : list bool) : list bool := zip_with andb m1 m2.
Infix "&&&" := mask_and (at level 40, left associativity).

(** [df[mask]]: the rows whose mask entry is True, in index order. *)
Fixpoint loc {B} (df : list B) (mask : list bool) : list B :=
  match df, mask with
  | r :: df', b :: mask' => if b then r :: loc df' mask' else loc df' mask'
  | _, _ => []
  end.

(** The cells that are present. *)
Definition dropna {B} (c : list (option B)) : list B := omap id c.

(** [Series.unique()]: a hash-table pass that keeps every value the first
    time it is seen, in order of appearance. *)
Fixpoint unique_from `{Countable B} (seen : gset B) (c : list B) : list B :=
  match c with
  | [] => []
  | x :: c' =>
      if decide (x ∈ seen) then unique_from seen c'
      else x :: unique_from ({[x]} ∪ seen) c'
  end.

Definition unique `{Countable B} (c : list B) : list B := unique_from ∅ c.

(** [Series.nunique()]: missing cells are not counted (dropna=True). *)
Definition nunique `{Countable B} (c : list (option B)) : nat :=
  length (unique (dropna c)).

(** ** Dates *)

(** The nanoseconds of a day. *)
Definition day : Z := 86400000000000.

(** The calendar date [n] days after 1970-01-01, as the timestamp of its
    midnight ([pd.to_datetime] of a date). *)
Definition date (n : Z) : Z := (n * day)%Z.

(** The date of a timestamp ([Timestamp.date()]): the time of day is
    dropped. *)
Definition midnight (t : Z) : Z := date (t / day).

(** [st.sidebar.date_input(label, value)] with a list as value: before the
    user touches the widget it returns the tuple of the dates of the values
    it was given; a value that is NaT raises ValueError. *)
Fixpoint date_input (value : list (option Z)) : result (list Z) :=
  match value with
  | [] => Ok []
  | Some t :: value' => dates ← date_input value'; mret (midnight t :: dates)
  | None :: _ => Raise ValueError
  end.

(** [Series.min()] and [Series.max()] on a datetime column skip NaT; the
    result is NaT when no cell is present. *)
Definition col_min (c : list (option Z)) : option Z :=
  match dropna c with
  | [] => None
  | x :: xs => Some (foldl Z.min x xs)
  end.

Definition col_max (c : list (option Z)) : option Z :=
  match dropna c with
  | [] => None
  | x :: xs => Some (foldl Z.max x xs)
  end.

Section Aggregates.
Context {A : Type} `{Numeric A}.

(** The sum of a list of amounts, accumulated from zero. *)
Definition asum (l : list A) : A := foldl num_add num_zero l.

(** [Series.sum()]: missing cells are filled with zero (skipna=True), so
    the sum of no cell is zero.  The cells are added from left to right:
    the library's sum on an exact dtype, and on float64 for fewer than
    eight cells (up to the sign of a zero). *)
Definition col_sum (c : list (option A)) : A :=
  asum (default num_zero <$> c).

(** [Series.mean()]: NaN when no cell is present; otherwise a float64,
    the float64 sum of the cells (converted to float64 one by one, missing
    cells filled with zero) over the count of the present cells.  The
    float64 sum is added from left to right, as the library does for fewer
    than eight cells. *)
Definition col_mean (c : list (option A)) : option float :=
  match length (dropna c) with
  | O => None
  | S n =>
      Some (PrimFloat.div (fsum (num_to_float <$> (default num_zero <$> c)))
              (float_of_Z (Z.of_nat (S n))))
  end.

(** One row of the pass of [groupby("Order Date")["Sales"].sum()]: a
    row with no date forms no group (dropna=True); a row with a date
    opens its group if need be and adds its amount when it has one.  The
    amounts of a group are added in row order: the library's group sum on
    an exact dtype; on float64 the library compensates the rounding of
    each addition, which shows from the third row of a group on, and it
    keeps the sign of a zero. *)
Definition group_step (acc : gmap Z A) (r : row A) : gmap Z A :=
  match Order_Date r with
  | None => acc
  | Some d =>
      let s := default num_zero (acc !! d) in
      <[d := match Sales r with Some v => num_add s v | None => s end]> acc
  end.

Definition by_key : relation (Z * A) := λ p q, (p.1 ≤ q.1)%Z.

#[export] Instance by_key_dec p q : Decision (by_key p q).
Proof. unfold by_key. apply _. Defined.

(** [df.groupby("Order Date")["Sales"].sum().reset_index()]: one row per
    date, in ascending order of the dates (sort=True). *)
Definition groupby_sum (df : DataFrame A) : list (Z * A) :=
  merge_sort by_key (map_to_list (foldl group_step ∅ df)).
End Aggregates.

(** ** The script *)

Section Script.
Context {A : Type} `{Numeric A}.

(** Lines 86-91: the four masks, their conjunction and the selection.
    [date_range] is the tuple the date widget returns, each date kept as
    the timestamp of its midnight; the script indexes it at 0 and at 1. *)
Definition filtered_df (df : DataFrame A) (region category : list string)
    (date_range : list Z) : result (DataFrame A) :=
  t0 ← getitem date_range 0;
  t1 ← getitem date_range 1;
  mret (loc df (isin (col Region df) region
                &&& isin (col Category df) category
                &&& ge_ts (col Order_Date df) t0
                &&& le_ts (col Order_Date df) t1)).

(** Lines 96-99: the KPIs. *)
Definition total_sales (fdf : DataFrame A) : A := col_sum (col Sales fdf).
Definition total_orders (fdf : DataFrame A) : nat := nunique (col Order_ID fdf).
Definition total_customers (fdf : DataFrame A) : nat := nunique (col Customer_ID fdf).
Definition avg_sales (fdf : DataFrame A) : option float := col_mean (col Sales fdf).

(** Line 116: the table of the line chart. *)
Definition sales_time (fdf : DataFrame A) : list (Z * A) := groupby_sum fdf.

(** Lines 126-156: the columns the other three figures read from the
    selection: bar (x=Category, y=Sales), histogram (x=Sales), scatter
    (x=Sales, y=Ship Mode, color=Region). *)
Definition fig_bar (fdf : DataFrame A) : list (string * option A) :=
  (λ r, (Category r, Sales r)) <$> fdf.
Definition fig_hist (fdf : DataFrame A) : list (option A) := col Sales fdf.
Definition fig_scatter (fdf : DataFrame A) : list (option A * string * string) :=
  (λ r, (Sales r, Ship_Mode r, Region r)) <$> fdf.

(** Lines 70-77: the defaults of the two multiselect widgets, which they
    hold before the user touches them. *)
Definition region_default (df : DataFrame A) : list string := unique (col Region df).
Definition category_default (df : DataFrame A) : list string := unique (col Category df).

(** Line 82: the value handed to the date widget, the earliest and the
    latest Order Date; there is none when either is NaT. *)
Definition date_range_default (df : DataFrame A) : option (list Z) :=
  lo ← col_min (col Order_Date df);
  hi ← col_max (col Order_Date df);
  Some [lo; hi].

(** Lines 80-83: what the date widget holds before the user touches it. *)
Definition date_range_initial (df : DataFrame A) : result (list Z) :=
  date_input [col_min (col Order_Date df); col_max (col Order_Date df)].

(** Everything one run of the script shows. *)
Record view := View {
  v_filtered : DataFrame A;
  v_total_sales : A;
  v_total_orders : nat;
  v_total_customers : nat;
  v_avg_sales : option float;
  v_sales_time : list (Z * A);
  v_bar : list (string * option A);
  v_hist : list (option A);
  v_scatter : list (option A * string * string)
}.

(** The process keeps the loaded frame between runs (the cached
    [load_data]).  A run is a computation over that store: it ends with a
    value or an exception, and with the store as it left it. *)
Definition run (R : Type) : Type := DataFrame A → result R * DataFrame A.

Definition run_ret {R} (r : R) : run R := λ st, (Ok r, st).
Definition run_bind {R S} (c : run R) (k : R → run S) : run S := λ st,
  match c st with
  | (Ok r, st') => k r st'
  | (Raise e, st') => (Raise e, st')
  end.
Definition load_data : run (DataFrame A) := λ st, (Ok st, st).
Definition lift {R} (c : result R) : run R := λ st, (c, st).

(** One run of the script for a state of the three widgets. *)
Definition computeView (region category : list string) (date_range : list Z) : run view :=
  run_bind load_data (λ df,
  run_bind (lift (filtered_df df region category date_range)) (λ fdf,
  run_ret {| v_filtered := fdf;
             v_total_sales := total_sales fdf;
             v_total_orders := total_orders fdf;
             v_total_customers := total_customers fdf;
             v_avg_sales := avg_sales fdf;
             v_sales_time := sales_time fdf;
             v_bar := fig_bar fdf;
             v_hist := fig_hist fdf;
             v_scatter := fig_scatter fdf |})).

(** What a run shows when the selection has no row. *)
Definition empty_view : view :=
  {| v_filtered := []; v_total_sales := num_zero; v_total_orders := 0;
     v_total_customers := 0; v_avg_sales := None; v_sales_time := [];
     v_bar := []; v_hist := []; v_scatter := [] |}.
End Script.
Arguments view A : clear implicits.
Arguments run A R : clear implicits.

(** ** The notions the specification is stated with *)

(** The condition the three filters put on one row. *)
Definition selected {A} (region category : list string) (t0 t1 : Z) (r : row A) : Prop :=
  Region r ∈ region ∧ Category r ∈ category ∧
  match Order_Date r with
  | Some d => (t0 ≤ d ∧ d ≤ t1)%Z
  | None => False
  end.

#[export] Instance selected_dec {A} region category t0 t1 (r : row A) :
  Decision (selected region category t0 t1 r).
Proof. unfold selected. destruct (Order_Date r); apply _. Defined.

(** The number of distinct values of a column: the size of the set of
    its cells, the missing cell left out. *)
Definition distinct `{Countable B} (c : list (option B)) : nat :=
  size ((list_to_set c : gset (option B)) ∖ {[None]}).

(** The sum of a list of amounts, and of the amounts a column has. *)
Fixpoint sum_of `{Numeric A} (l : list A) : A :=
  match l with
  | [] => num_zero
  | x :: l' => num_add x (sum_of l')
  end.

Fixpoint sum_present `{Numeric A} (c : list (option A)) : A :=
  match c with
  | [] => num_zero
  | Some x :: c' => num_add x (sum_present c')
  | None :: c' => sum_present c'
  end.

(** The rows of one date, and the sum of their Sales. *)
Definition rows_on {A} (d : Z) (df : DataFrame A) : DataFrame A :=
  filter (λ r, Order_Date r = Some d) df.

Definition sales_on `{Numeric A} (d : Z) (df : DataFrame A) : A :=
  asum (dropna (col Sales (rows_on d df))).

(** The condition of the date filter alone. *)
Definition in_range {A} (t0 t1 : Z) (r : row A) : Prop :=
  match Order_Date r with
  | Some d => (t0 ≤ d ∧ d ≤ t1)%Z
  | None => False
  end.

#[export] Instance in_range_dec {A} t0 t1 (r : row A) : Decision (in_range t0 t1 r).
Proof. unfold in_range. destruct (Order_Date r); apply _. Defined.

(** ** Sample frames *)

(** The three records of the specification's example, on an int64 Sales
    column: 2021-01-05, 2021-01-06 and 2021-02-01 are the days 18632, 18633
    and 18659. *)
Definition ex_df : DataFrame Z :=
  [ Row "East" "Food" (Some (date 18632)) "Standard" (Some 10%Z) (Some "O1") (Some "C1");
    Row "West" "Food" (Some (date 18633)) "Standard" (Some 20%Z) (Some "O2") (Some "C2");
    Row "East" "Toys" (Some (date 18659)) "Express" (Some 5%Z) (Some "O3") (Some "C1") ].

(** A file in which the second record has an empty Order Date cell. *)
Definition nat_df : DataFrame Z :=
  [ Row "East" "Food" (Some (date 18632)) "Standard" (Some 10%Z) (Some "O1") (Some "C1");
    Row "West" "Food" None "Standard" (Some 20%Z) (Some "O2") (Some "C2") ].

(** Two records, the second dated 13:00 on the last day. *)
Definition tod_df : DataFrame Z :=
  [ Row "East" "Food" (Some (date 18632)) "Standard" (Some 10%Z) (Some "O1") (Some "C1");
    Row "West" "Food" (Some (date 18633 + 46800000000000)%Z) "Standard" (Some 20%Z)
      (Some "O2") (Some "C2") ].

(** Four records: three orders of two customers, and a record without an
    Order ID. *)
Definition ids_df : DataFrame Z :=
  [ Row "East" "Food" (Some (date 18632)) "Standard" (Some 10%Z) (Some "O1") (Some "C1");
    Row "West" "Food" (Some (date 18633)) "Standard" (Some 20%Z) (Some "O2") (Some "C2");
    Row "East" "Toys" (Some (date 18659)) "Express" (Some 5%Z) (Some "O3") (Some "C1");
    Row "East" "Toys" (Some (date 18659)) "Express" (Some 7%Z) None (Some "C2") ].

(** Three records on a float64 Sales column; the first and the third share
    a date. *)
#[warnings="-inexact-float"]
Definition float_df : DataFrame float :=
  [ Row "East" "Food" (Some (date 18632)) "Standard" (Some 10.1%float) (Some "O1") (Some "C1");
    Row "West" "Food" (Some (date 18633)) "Standard" (Some 5.3%float) (Some "O2") (Some "C2");
    Row "East" "Toys" (Some (date 18632)) "Express" (Some 19.99%float) (Some "O3") (Some "C1") ].

(** * Properties *)

Example ex_filtered :
  filtered_df ex_df ["East"] ["Food"; "Toys"] [date 18628; date 18658]
  = Ok [Row "East" "Food" (Some (date 18632)) "Standard" (Some 10%Z) (Some "O1") (Some "C1")].
Proof. vm_compute. reflexivity. Qed.

Example ex_view :
  ∃ v, computeView ["East"] ["Food"; "Toys"] [date 18628; date 18658] ex_df = (Ok v, ex_df)
       ∧ v_total_sales v = 10%Z ∧ v_total_orders v = 1 ∧ v_total_customers v = 1
       ∧ v_avg_sales v = Some 10%float ∧ v_sales_time v = [(date 18632, 10%Z)].
Proof. eexists. split; [vm_compute; reflexivity|]. vm_compute. repeat split. Qed.


(** The mean of the three amounts 10, 20 and 5 of an int64 column is a
    float64. *)
#[warnings="-inexact-float"]
Example ex_df_avg_sales : avg_sales ex_df = Some 11.666666666666666%float.
Proof. vm_compute. reflexivity. Qed.

(** ** The selection, row by row *)

Section Selection.
Context {A : Type}.
Implicit Types (df : DataFrame A) (r : row A) (region category : list string).

Lemma filtered_df_pair df region category t0 t1 :
  filtered_df df region category [t0; t1]
  = Ok (loc df (isin (col Region df) region
                &&& isin (col Category df) category
                &&& ge_ts (col Order_Date df) t0
                &&& le_ts (col Order_Date df) t1)).
Proof. reflexivity. Qed.

(** The mask of the script picks exactly the selected rows. *)
Lemma loc_masks df region category t0 t1 :
  loc df (isin (col Region df) region
          &&& isin (col Category df) category
          &&& ge_ts (col Order_Date df) t0
          &&& le_ts (col Order_Date df) t1)
  = filter (selected region category t0 t1) df.
Proof.
  induction df as [|r df IH]; [reflexivity|].
  unfold isin, ge_ts, le_ts, mask_and, col in *. csimpl.
  rewrite IH, filter_cons.
  destruct (decide (selected region category t0 t1 r)) as [Hs|Hs];
    unfold selected in Hs; destruct (Order_Date r) as [d|];
    repeat case_bool_decide; simpl; try reflexivity; exfalso; tauto.
Qed.

Lemma filtered_df_filter df region category t0 t1 :
  filtered_df df region category [t0; t1]
  = Ok (filter (selected region category t0 t1) df).
Proof. by rewrite filtered_df_pair, loc_masks. Qed.

(** A selection with fewer than two dates raises; any other returns. *)
Lemma filtered_df_Ok_inv df region category date_range fdf :
  filtered_df df region category date_range = Ok fdf →
  ∃ t0 t1 rest, date_range = t0 :: t1 :: rest
    ∧ fdf = filter (selected region category t0 t1) df.
Proof.
  destruct date_range as [|t0 [|t1 rest]];
    [intros Hf; discriminate Hf..|].
  intros Hf. exists t0, t1, rest. split; [done|].
  change (filtered_df df region category (t0 :: t1 :: rest))
    with (filtered_df df region category [t0; t1]) in Hf.
  rewrite filtered_df_filter in Hf. congruence.
Qed.

Lemma selected_mono region region' category category' t0 t0' t1 t1' r :
  region ⊆ region' → category ⊆ category' → (t0' ≤ t0)%Z → (t1 ≤ t1')%Z →
  selected region category t0 t1 r → selected region' category' t0' t1' r.
Proof.
  unfold selected. intros Hr Hc ? ? (? & ? & Hd). split_and!; [auto..|].
  destruct (Order_Date r); [lia|done].
Qed.

(** A stronger condition selects a sublist. *)
Lemma filter_sublist_impl {B} (P Q : B → Prop)
    `{!∀ x, Decision (P x)} `{!∀ x, Decision (Q x)} (l : list B) :
  (∀ x, P x → Q x) → filter P l `sublist_of` filter Q l.
Proof.
  intros HPQ. induction l as [|x l IH]; [done|].
  rewrite !filter_cons. repeat case_decide.
  - by apply sublist_skip.
  - naive_solver.
  - by apply sublist_cons.
  - done.
Qed.
End Selection.

(** ** Columns: present cells, distinct values, extrema *)

Section Columns.
Context `{Countable B}.
Implicit Types (c : list B) (seen : gset B).

Lemma length_dropna {C} (c : list (option C)) : length (dropna c) ≤ length c.
Proof.
  unfold dropna. induction c as [|[x|] c IH]; csimpl; lia.
Qed.

Lemma elem_of_unique_from seen c x :
  x ∈ unique_from seen c ↔ x ∈ c ∧ x ∉ seen.
Proof.
  revert seen. induction c as [|y c IH]; intros seen; simpl.
  - rewrite elem_of_nil. tauto.
  - case_decide; rewrite ?elem_of_cons, IH; destruct (decide (x = y)); set_solver.
Qed.

Lemma NoDup_unique_from seen c : NoDup (unique_from seen c).
Proof.
  revert seen. induction c as [|y c IH]; intros seen; simpl.
  - constructor.
  - case_decide; [apply IH|]. constructor; [|apply IH].
    rewrite elem_of_unique_from. set_solver.
Qed.

Lemma length_unique_from seen c : length (unique_from seen c) ≤ length c.
Proof.
  revert seen. induction c as [|y c IH]; intros seen; simpl; [lia|].
  case_decide; simpl; [specialize (IH seen)|specialize (IH ({[y]} ∪ seen))]; lia.
Qed.

Lemma elem_of_unique c x : x ∈ unique c ↔ x ∈ c.
Proof. unfold unique. rewrite elem_of_unique_from. set_solver. Qed.

Lemma elem_of_dropna {C} (c : list (option C)) x : x ∈ dropna c ↔ Some x ∈ c.
Proof.
  unfold dropna. rewrite list_elem_of_omap. split.
  - intros (y & Hy & Heq). simpl in Heq. by subst.
  - intros Hx. by exists (Some x).
Qed.

(** A list that holds each present value of a column once has as many
    entries as the column has distinct values. *)
Lemma distinct_NoDup (c : list (option B)) (l : list B) :
  NoDup l → (∀ x, x ∈ l ↔ Some x ∈ c) → distinct c = length l.
Proof.
  intros Hnd Hl. unfold distinct.
  rewrite <- (length_fmap Some l).
  rewrite <- (size_list_to_set (C := gset (option B)) (Some <$> l))
    by (apply (NoDup_fmap_2 _); done).
  f_equal. apply set_eq. intros [x|].
  - rewrite elem_of_difference, !elem_of_list_to_set, list_elem_of_fmap.
    split.
    + intros [Hx _]. exists x. split; [done|]. by apply Hl.
    + intros (y & [= ->] & Hy). split; [by apply Hl|]. set_solver.
  - rewrite elem_of_difference, !elem_of_list_to_set, list_elem_of_fmap.
    split; [set_solver|]. by intros (y & [=] & _).
Qed.

(** The hash-table pass counts the distinct present values. *)
Lemma nunique_distinct (c : list (option B)) : nunique c = distinct c.
Proof.
  unfold nunique. symmetry. apply distinct_NoDup.
  - apply NoDup_unique_from.
  - intros x. by rewrite elem_of_unique, elem_of_dropna.
Qed.

Lemma nunique_le (c : list (option B)) : nunique c ≤ length c.
Proof.
  unfold nunique, unique.
  etrans; [apply length_unique_from|apply length_dropna].
Qed.
End Columns.

Lemma foldl_min_le x xs : (foldl Z.min x xs ≤ x)%Z ∧ Forall (λ y, foldl Z.min x xs ≤ y)%Z xs.
Proof.
  revert x. induction xs as [|y xs IH]; intros x; simpl; [by split|].
  destruct (IH (Z.min x y)) as [Hx Hxs]. split; [lia|].
  constructor; [lia|done].
Qed.

Lemma foldl_max_ge x xs : (x ≤ foldl Z.max x xs)%Z ∧ Forall (λ y, y ≤ foldl Z.max x xs)%Z xs.
Proof.
  revert x. induction xs as [|y xs IH]; intros x; simpl; [by split|].
  destruct (IH (Z.max x y)) as [Hx Hxs]. split; [lia|].
  constructor; [lia|done].
Qed.

Lemma col_min_le c lo d : col_min c = Some lo → Some d ∈ c → (lo ≤ d)%Z.
Proof.
  unfold col_min. intros Hlo Hd.
  assert (d ∈ dropna c) as Hin by (apply list_elem_of_omap; eauto).
  destruct (dropna c) as [|x xs]; [done|]. injection Hlo as <-.
  destruct (foldl_min_le x xs) as [Hx Hxs].
  apply elem_of_cons in Hin as [->|Hin]; [done|].
  by eapply Forall_forall in Hxs.
Qed.

Lemma col_max_ge c hi d : col_max c = Some hi → Some d ∈ c → (d ≤ hi)%Z.
Proof.
  unfold col_max. intros Hhi Hd.
  assert (d ∈ dropna c) as Hin by (apply list_elem_of_omap; eauto).
  destruct (dropna c) as [|x xs]; [done|]. injection Hhi as <-.
  destruct (foldl_max_ge x xs) as [Hx Hxs].
  apply elem_of_cons in Hin as [->|Hin]; [done|].
  by eapply Forall_forall in Hxs.
Qed.

Lemma col_min_max_is_Some c d :
  Some d ∈ c → is_Some (col_min c) ∧ is_Some (col_max c).
Proof.
  intros Hd. assert (d ∈ dropna c) as Hin by (apply list_elem_of_omap; eauto).
  unfold col_min, col_max. destruct (dropna c); [by apply elem_of_nil in Hin|].
  split; eauto.
Qed.

(** ** Sums *)

Section Sums.
Context {A : Type} `{Numeric A}.
Implicit Types (l : list A) (c : list (option A)).

Lemma asum_snoc l x : asum (l ++ [x]) = num_add (asum l) x.
Proof. unfold asum. by rewrite foldl_snoc. Qed.

Lemma col_sum_snoc c x : col_sum (c ++ [x]) = num_add (col_sum c) (default num_zero x).
Proof. unfold col_sum. rewrite fmap_app. apply asum_snoc. Qed.

Lemma dropna_snoc {C} (c : list (option C)) x :
  dropna (c ++ [x]) = dropna c ++ match x with Some v => [v] | None => [] end.
Proof. unfold dropna. rewrite omap_app. by destruct x. Qed.

Context `{!Exact A}.

Lemma num_add_zero_r (x : A) : num_add x num_zero = x.
Proof. by rewrite num_add_comm, num_add_zero_l. Qed.

Lemma foldl_add_start (a : A) l : foldl num_add a l = num_add a (asum l).
Proof.
  revert a. induction l as [|x l IH]; intros a; simpl.
  - unfold asum. simpl. by rewrite num_add_zero_r.
  - unfold asum. simpl. rewrite (IH (num_add a x)), (IH (num_add num_zero x)).
    by rewrite num_add_zero_l, num_add_assoc.
Qed.

Lemma asum_cons x l : asum (x :: l) = num_add x (asum l).
Proof.
  unfold asum at 1. simpl. by rewrite foldl_add_start, num_add_zero_l.
Qed.

(** With an exact addition the sum does not depend on the order. *)
Lemma asum_Permutation l l' : l ≡ₚ l' → asum l = asum l'.
Proof.
  induction 1 as [|x l l' _ IH|x y l|l l' l'' _ IH1 _ IH2].
  - done.
  - by rewrite !asum_cons, IH.
  - rewrite !asum_cons, !num_add_assoc. by rewrite (num_add_comm x y).
  - congruence.
Qed.
End Sums.

(** ** The group-by pass *)

Section Groups.
Context {A : Type} `{Numeric A}.
Implicit Types (df : DataFrame A) (r : row A) (d : Z).

Lemma rows_on_snoc d df r :
  rows_on d (df ++ [r])
  = rows_on d df ++ (if decide (Order_Date r = Some d) then [r] else []).
Proof.
  unfold rows_on. by rewrite filter_app.
Qed.

(** After the pass, a date has a group exactly when some row carries it,
    and the group holds the sum of the Sales of these rows. *)
Lemma groups_lookup df d :
  foldl group_step ∅ df !! d
  = if decide (rows_on d df = []) then None else Some (sales_on d df).
Proof.
  induction df as [|r df IH] using rev_ind.
  - simpl. by rewrite lookup_empty.
  - rewrite foldl_snoc.
    assert (default num_zero (foldl group_step ∅ df !! d) = sales_on d df) as Hs.
    { rewrite IH. case_decide as Hd; [|done]. unfold sales_on. by rewrite Hd. }
    destruct (decide (Order_Date r = Some d)) as [Hr|Hr].
    + assert (rows_on d (df ++ [r]) = rows_on d df ++ [r]) as Hrows
        by (by rewrite rows_on_snoc, decide_True).
      rewrite decide_False by (rewrite Hrows; by intros [_ [=]]%app_eq_nil).
      unfold group_step at 1. rewrite Hr. cbv zeta. rewrite lookup_insert_eq, Hs.
      f_equal. unfold sales_on. rewrite Hrows.
      unfold col. rewrite fmap_app.
      change (Sales <$> [r]) with [Sales r]. rewrite dropna_snoc.
      destruct (Sales r); [by rewrite asum_snoc|by rewrite app_nil_r].
    + assert (rows_on d (df ++ [r]) = rows_on d df) as Hrows
        by (by rewrite rows_on_snoc, decide_False, app_nil_r).
      unfold sales_on. rewrite Hrows. fold (sales_on d df). rewrite <- IH.
      unfold group_step at 1. destruct (Order_Date r) as [d'|]; [|done].
      cbv zeta. apply lookup_insert_ne. congruence.
Qed.

#[local] Instance by_key_trans : Transitive (by_key (A := A)).
Proof. unfold by_key. intros ???. lia. Qed.

#[local] Instance by_key_total : Total (by_key (A := A)).
Proof. unfold by_key. intros ??. lia. Qed.

Lemma groupby_sum_Permutation df :
  groupby_sum df ≡ₚ map_to_list (foldl group_step ∅ df).
Proof. apply merge_sort_Permutation. Qed.

(** The rows of the table: one per date that occurs, with the sum of that
    date. *)
Lemma elem_of_groupby_sum df d s :
  (d, s) ∈ groupby_sum df ↔ rows_on d df ≠ [] ∧ s = sales_on d df.
Proof.
  rewrite groupby_sum_Permutation, elem_of_map_to_list, groups_lookup.
  case_decide; naive_solver.
Qed.

Lemma NoDup_groupby_sum df : NoDup (groupby_sum df).*1.
Proof.
  rewrite groupby_sum_Permutation. apply NoDup_fst_map_to_list.
Qed.

(** Ascending keys without a repeated key are strictly ascending. *)
Lemma StronglySorted_strict (l : list (Z * A)) :
  StronglySorted by_key l → NoDup l.*1 → StronglySorted Z.lt l.*1.
Proof.
  induction 1 as [|p l Hl IH Hp]; simpl; [constructor|].
  intros [Hnin Hnd]%NoDup_cons. constructor; [by apply IH|].
  apply Forall_fmap, Forall_forall. intros q Hq. simpl.
  assert (p.1 ≤ q.1)%Z by (by eapply Forall_forall in Hp).
  assert (q.1 ≠ p.1) by (intros Heq; apply Hnin; rewrite <- Heq; by apply list_elem_of_fmap_2).
  lia.
Qed.

Lemma groupby_sum_ascending df : StronglySorted Z.lt (groupby_sum df).*1.
Proof.
  apply StronglySorted_strict; [|apply NoDup_groupby_sum].
  apply StronglySorted_merge_sort; apply _.
Qed.
End Groups.

(** ** The groups add up to the column *)

Section GroupTotals.
Context {A : Type} `{Numeric A} `{!Exact A}.
Implicit Types (df : DataFrame A) (r : row A) (m : gmap Z A).

Lemma asum_insert_fresh m d x :
  m !! d = None →
  asum (map_to_list (<[d:=x]> m)).*2 = num_add x (asum (map_to_list m).*2).
Proof.
  intros Hd. rewrite <- asum_cons. apply asum_Permutation.
  change (x :: (map_to_list m).*2) with ((d, x) :: map_to_list m).*2.
  by rewrite map_to_list_insert.
Qed.

Lemma asum_delete m d s :
  m !! d = Some s →
  asum (map_to_list m).*2 = num_add s (asum (map_to_list (delete d m)).*2).
Proof.
  intros Hd. rewrite <- asum_cons. apply asum_Permutation.
  change (s :: (map_to_list (delete d m)).*2)
    with ((d, s) :: map_to_list (delete d m)).*2.
  by rewrite map_to_list_delete.
Qed.

(** A dated row adds its amount to the sum of the groups. *)
Lemma group_step_total m r :
  is_Some (Order_Date r) →
  asum (map_to_list (group_step m r)).*2
  = num_add (asum (map_to_list m).*2) (default num_zero (Sales r)).
Proof.
  intros [d Hd]. unfold group_step. rewrite Hd. cbv zeta.
  destruct (m !! d) as [s|] eqn:Hm; simpl.
  - rewrite <- insert_delete_eq.
    rewrite asum_insert_fresh by apply lookup_delete_eq.
    rewrite (asum_delete m d s) by done.
    destruct (Sales r) as [v|]; simpl.
    + rewrite <- !num_add_assoc. f_equal. apply num_add_comm.
    + by rewrite num_add_zero_r.
  - rewrite asum_insert_fresh by done.
    destruct (Sales r) as [v|]; simpl.
    + by rewrite num_add_zero_l, num_add_comm.
    + by rewrite num_add_zero_l, num_add_zero_r.
Qed.

Lemma groupby_sum_total df :
  Forall (λ r, is_Some (Order_Date r)) df →
  asum (groupby_sum df).*2 = col_sum (col Sales df).
Proof.
  intros Hdf.
  rewrite (asum_Permutation _ (map_to_list (foldl group_step ∅ df)).*2)
    by (by rewrite groupby_sum_Permutation).
  induction df as [|r df IH] using rev_ind.
  - simpl. by rewrite map_to_list_empty.
  - apply Forall_app in Hdf as [Hdf Hr]. rewrite Forall_singleton in Hr.
    rewrite foldl_snoc. rewrite group_step_total by exact Hr.
    rewrite IH by exact Hdf.
    unfold col. rewrite fmap_app. symmetry. apply col_sum_snoc.
Qed.
End GroupTotals.

Lemma selected_has_date {A} region category t0 t1 (r : row A) :
  selected region category t0 t1 r → is_Some (Order_Date r).
Proof. intros (_ & _ & Hd). destruct (Order_Date r); [eauto|done]. Qed.

Lemma filtered_df_has_date {A} (df fdf : DataFrame A) region category date_range :
  filtered_df df region category date_range = Ok fdf →
  Forall (λ r, is_Some (Order_Date r)) fdf.
Proof.
  intros (t0 & t1 & rest & -> & ->)%filtered_df_Ok_inv.
  apply Forall_forall. intros r [Hr _]%list_elem_of_filter.
  by eapply selected_has_date.
Qed.

Lemma filter_all {B} (P : B → Prop) `{!∀ x, Decision (P x)} (l : list B) :
  Forall P l → filter P l = l.
Proof.
  induction 1 as [|x l Hx _ IH]; [done|].
  by rewrite filter_cons, decide_True, IH.
Qed.

Lemma filter_none {B} (P : B → Prop) `{!∀ x, Decision (P x)} (l : list B) :
  (∀ x, ¬ P x) → filter P l = [].
Proof.
  intros HP. induction l as [|x l IH]; [done|].
  by rewrite filter_cons, decide_False, IH.
Qed.

Section Runs.
Context {A : Type} `{Numeric A}.

(** A run reads the store and hands it on as it is. *)
Lemma computeView_unfold region category date_range (df : DataFrame A) :
  computeView region category date_range df
  = (match filtered_df df region category date_range with
     | Ok fdf =>
         Ok {| v_filtered := fdf;
               v_total_sales := total_sales fdf;
               v_total_orders := total_orders fdf;
               v_total_customers := total_customers fdf;
               v_avg_sales := avg_sales fdf;
               v_sales_time := sales_time fdf;
               v_bar := fig_bar fdf;
               v_hist := fig_hist fdf;
               v_scatter := fig_scatter fdf |}
     | Raise e => Raise e
     end, df).
Proof.
  unfold computeView, run_bind, load_data, lift, run_ret.
  by destruct (filtered_df df region category date_range).
Qed.

Lemma computeView_empty region category date_range (df : DataFrame A) :
  filtered_df df region category date_range = Ok [] →
  computeView region category date_range df = (Ok empty_view, df).
Proof. intros Hf. rewrite computeView_unfold, Hf. reflexivity. Qed.
End Runs.

(** ** Extrema are cells of the column *)

Lemma foldl_min_elem x xs : foldl Z.min x xs ∈ x :: xs.
Proof.
  revert x. induction xs as [|y xs IH]; intros x; simpl; [apply list_elem_of_here|].
  specialize (IH (Z.min x y)). rewrite !elem_of_cons in *.
  destruct IH as [->|?]; [|tauto]. lia.
Qed.

Lemma foldl_max_elem x xs : foldl Z.max x xs ∈ x :: xs.
Proof.
  revert x. induction xs as [|y xs IH]; intros x; simpl; [apply list_elem_of_here|].
  specialize (IH (Z.max x y)). rewrite !elem_of_cons in *.
  destruct IH as [->|?]; [|tauto]. lia.
Qed.

Lemma col_min_elem c lo : col_min c = Some lo → Some lo ∈ c.
Proof.
  unfold col_min. intros Hlo. apply elem_of_dropna.
  destruct (dropna c) as [|x xs]; [done|]. injection Hlo as <-.
  apply foldl_min_elem.
Qed.

Lemma col_max_elem c hi : col_max c = Some hi → Some hi ∈ c.
Proof.
  unfold col_max. intros Hhi. apply elem_of_dropna.
  destruct (dropna c) as [|x xs]; [done|]. injection Hhi as <-.
  apply foldl_max_elem.
Qed.

Lemma dropna_nil_iff {C} (c : list (option C)) :
  dropna c = [] ↔ ∀ x, x ∈ c → x = None.
Proof.
  split.
  - intros Hnil [x|] Hx; [|done].
    apply elem_of_dropna in Hx. rewrite Hnil in Hx. by apply elem_of_nil in Hx.
  - intros Hall. destruct (dropna c) as [|x xs] eqn:Hd; [done|].
    assert (Some x ∈ c) as Hx by (apply elem_of_dropna; rewrite Hd; apply list_elem_of_here).
    by apply Hall in Hx.
Qed.

(** ** The dates of the line chart *)

Section SalesTime.
Context {A : Type} `{Numeric A}.
Implicit Types (fdf : DataFrame A).

Lemma rows_on_nonempty d fdf :
  rows_on d fdf ≠ [] ↔ Some d ∈ col Order_Date fdf.
Proof.
  unfold rows_on, col. rewrite list_elem_of_fmap. split.
  - intros Hne. destruct (filter _ fdf) as [|r l] eqn:Hf; [done|].
    assert (r ∈ filter (λ r, Order_Date r = Some d) fdf) as Hr
      by (rewrite Hf; apply list_elem_of_here).
    apply list_elem_of_filter in Hr as [Hd Hr]. eauto.
  - intros (r & Hd & Hr) Hnil.
    assert (r ∈ filter (λ r, Order_Date r = Some d) fdf) as Hin
      by (by apply list_elem_of_filter).
    rewrite Hnil in Hin. by apply elem_of_nil in Hin.
Qed.

(** The dates of the table are the dates of the frame. *)
Lemma sales_time_dates fdf d :
  d ∈ (sales_time fdf).*1 ↔ Some d ∈ col Order_Date fdf.
Proof.
  rewrite <- rows_on_nonempty, list_elem_of_fmap. split.
  - intros ([d' s] & -> & Hin). by apply elem_of_groupby_sum in Hin as [? _].
  - intros Hne. exists (d, sales_on d fdf). split; [done|].
    by apply elem_of_groupby_sum.
Qed.

Lemma StronglySorted_lt_head (k : Z) (K : list Z) x :
  StronglySorted Z.lt (k :: K) → x ∈ k :: K → (k ≤ x)%Z.
Proof.
  intros [Hall _]%StronglySorted_cons [->|Hx]%elem_of_cons; [lia|].
  eapply Forall_forall in Hall; [|done]. lia.
Qed.

Lemma StronglySorted_lt_last (k : Z) (K : list Z) x :
  StronglySorted Z.lt (K ++ [k]) → x ∈ K ++ [k] → (x ≤ k)%Z.
Proof.
  intros Hs [Hx|Hx]%elem_of_app.
  - assert (x < k)%Z; [|lia].
    eapply StronglySorted_app_1_elem_of; [done..|apply list_elem_of_here].
  - apply list_elem_of_singleton in Hx as ->. lia.
Qed.
End SalesTime.

(** ** Exact sums *)

Section ExactSums.
Context {A : Type} `{Numeric A} `{!Exact A}.
Implicit Types (l : list A) (c : list (option A)) (df : DataFrame A).



Lemma col_sum_dropna c : col_sum c = asum (dropna c).
Proof.
  unfold col_sum, dropna. induction c as [|[x|] c IH]; csimpl; [done|..].
  - by rewrite !asum_cons, IH.
  - by rewrite asum_cons, IH, num_add_zero_l.
Qed.

Lemma col_sum_Permutation c c' : c ≡ₚ c' → col_sum c = col_sum c'.
Proof. intros Hp. unfold col_sum. apply asum_Permutation. by rewrite Hp. Qed.

Lemma sales_on_Permutation d df df' : df ≡ₚ df' → sales_on d df = sales_on d df'.
Proof.
  intros Hp. unfold sales_on, rows_on, col, dropna.
  apply asum_Permutation. by rewrite Hp.
Qed.

(** The groups do not depend on the order of the rows. *)
Lemma groups_Permutation df df' :
  df ≡ₚ df' → foldl group_step ∅ df = foldl group_step ∅ df'.
Proof.
  intros Hp. apply map_eq. intros d. rewrite !groups_lookup.
  assert (rows_on d df ≡ₚ rows_on d df') as Hrows
    by (unfold rows_on; by rewrite Hp).
  rewrite (sales_on_Permutation d df df') by done.
  destruct (decide (rows_on d df = [])) as [Hnil|Hne].
  - rewrite Hnil in Hrows. apply Permutation_nil_l in Hrows.
    by rewrite decide_True.
  - rewrite decide_False; [done|].
    intros Hnil. rewrite Hnil in Hrows. by apply Permutation_nil_r in Hrows.
Qed.

Lemma asum_sum_of l : asum l = sum_of l.
Proof. induction l as [|x l IH]; [done|]. by rewrite asum_cons, IH. Qed.

Lemma col_sum_sum_present c : col_sum c = sum_present c.
Proof.
  rewrite col_sum_dropna, asum_sum_of. unfold dropna.
  induction c as [|[x|] c IH]; csimpl; [done|by rewrite IH|done].
Qed.
End ExactSums.

(** ** Dates and midnights *)

Lemma midnight_le t : (midnight t ≤ t)%Z.
Proof.
  unfold midnight, date, day.
  pose proof (Z.mul_div_le t 86400000000000). lia.
Qed.

Lemma midnight_date n : midnight (date n) = date n.
Proof.
  unfold midnight, date, day. f_equal. by apply Z.div_mul.
Qed.

Lemma filter_eq_all {B} (P : B → Prop) `{!∀ x, Decision (P x)} (l : list B) :
  filter P l = l → Forall P l.
Proof.
  intros Heq. apply Forall_forall. intros x Hx.
  rewrite <- Heq in Hx. by apply list_elem_of_filter in Hx as [? _].
Qed.

(** * The claims of the specification *)

(** C1. The filter is sound and complete.  For every dataset and every
    selection of regions, categories and dates, the script returns a
    filtered frame, and a record is in it if and only if it is a record of
    the dataset whose Region is among the regions, whose Category is among
    the categories and whose Order Date [d] satisfies [t0 <= d <= t1], both
    bounds included.  The frame is the dataset restricted to these records,
    so a record that occurs several times is kept as many times. *)
Theorem filtered_df_sound_complete {A} (df : DataFrame A) region category t0 t1 :
  ∃ fdf, filtered_df df region category [t0; t1] = Ok fdf
    ∧ fdf = filter (selected region category t0 t1) df
    ∧ ∀ r, r ∈ fdf ↔
        r ∈ df ∧ Region r ∈ region ∧ Category r ∈ category
        ∧ ∃ d, Order_Date r = Some d ∧ (t0 ≤ d)%Z ∧ (d ≤ t1)%Z.
Proof.
  eexists. split; [apply filtered_df_filter|]. split; [done|].
  intros r. rewrite list_elem_of_filter. unfold selected.
  destruct (Order_Date r) as [d|]; naive_solver.
Qed.

(** C2. The filtered frame is a subsequence of the dataset: its records
    are records of the dataset, in the order the dataset has them. *)
Theorem filtered_df_sublist {A} (df fdf : DataFrame A) region category date_range :
  filtered_df df region category date_range = Ok fdf →
  fdf `sublist_of` df.
Proof.
  intros (t0 & t1 & rest & -> & ->)%filtered_df_Ok_inv.
  apply sublist_filter.
Qed.

Lemma filtered_df_sublist_witness :
  filtered_df ex_df ["East"] ["Food"; "Toys"] [date 18628; date 18658] = Ok (take 1 ex_df)
  ∧ take 1 ex_df `sublist_of` ex_df.
Proof.
  split; [vm_compute; reflexivity|].
  apply (filtered_df_sublist ex_df (take 1 ex_df) ["East"] ["Food"; "Toys"]
           [date 18628; date 18658]).
  vm_compute; reflexivity.
Defined.

(** C3. When the start of the date range is after its end, the filtered
    frame is empty whatever the regions and categories are, and the run
    ends with the view of an empty selection, not with an exception. *)
Theorem inverted_range_empty {A} {NA : Numeric A} (df : DataFrame A) region category t0 t1 :
  (t1 < t0)%Z →
  filtered_df df region category [t0; t1] = Ok []
  ∧ computeView region category [t0; t1] df = (Ok empty_view, df).
Proof.
  intros Hlt.
  assert (filtered_df df region category [t0; t1] = Ok []) as Hf.
  { rewrite filtered_df_filter. f_equal. apply filter_none.
    intros r (_ & _ & Hd). destruct (Order_Date r); [lia|done]. }
  split; [done|]. by apply computeView_empty.
Qed.

Lemma inverted_range_empty_witness :
  (date 18628 < date 18658)%Z
  ∧ filtered_df ex_df ["East"; "West"] ["Food"; "Toys"] [date 18658; date 18628] = Ok []
  ∧ computeView ["East"; "West"] ["Food"; "Toys"] [date 18658; date 18628] ex_df
    = (Ok empty_view, ex_df).
Proof.
  split; [reflexivity|].
  apply (inverted_range_empty (NA := Z_Numeric) ex_df ["East"; "West"] ["Food"; "Toys"]
           (date 18658) (date 18628)).
  reflexivity.
Defined.

(** C4. A run whose filtered frame is empty raises nothing: the total of
    the sales is zero, the two counts are 0, the average is the
    not-a-number marker and the four chart tables are empty.  This is the
    case in particular for an empty dataset and for an empty selection of
    regions (with a date range of two dates). *)
Theorem empty_selection_view {A} {NA : Numeric A} (df : DataFrame A) region category date_range :
  filtered_df df region category date_range = Ok []
  ∨ (∃ t0 t1, date_range = [t0; t1]) ∧ (df = [] ∨ region = []) →
  filtered_df df region category date_range = Ok []
  ∧ computeView region category date_range df
    = (Ok {| v_filtered := []; v_total_sales := num_zero;
             v_total_orders := 0; v_total_customers := 0;
             v_avg_sales := None; v_sales_time := [];
             v_bar := []; v_hist := []; v_scatter := [] |}, df).
Proof.
  intros Hcase.
  assert (filtered_df df region category date_range = Ok []) as Hf.
  { destruct Hcase as [Hf|[(t0 & t1 & ->) Hnil]]; [done|].
    rewrite filtered_df_filter. f_equal. destruct Hnil as [->| ->]; [done|].
    apply filter_none. intros r (Hr & _). by apply elem_of_nil in Hr. }
  split; [done|]. by apply computeView_empty.
Qed.

Lemma empty_selection_view_witness :
  filtered_df ex_df [] ["Food"; "Toys"] [date 18628; date 18658] = Ok []
  ∧ computeView [] ["Food"; "Toys"] [date 18628; date 18658] ex_df
    = (Ok {| v_filtered := []; v_total_sales := 0%Z;
             v_total_orders := 0; v_total_customers := 0;
             v_avg_sales := None; v_sales_time := [];
             v_bar := []; v_hist := []; v_scatter := [] |}, ex_df).
Proof.
  apply (empty_selection_view (NA := Z_Numeric) ex_df [] ["Food"; "Toys"] [date 18628; date 18658]).
  right. split; [by exists (date 18628), (date 18658)|by right].
Defined.

Example empty_dataset_view :
  computeView ["East"] ["Food"] [date 18628; date 18658] ([] : DataFrame Z)
  = (Ok empty_view, []).
Proof. reflexivity. Qed.

(** C5, as the code has it.  The table of the line chart of every filtered
    frame has strictly ascending dates, no date twice, and a row for
    exactly the dates that occur in the frame.  When addition on the Sales
    dtype is exact (associative and commutative, zero neutral), each row
    holds the sum of the Sales of the records of its date, and the sum of
    the rows is the total-sales KPI, which is the sum of the Sales of the
    frame. *)
Theorem sales_time_table {A} {NA : Numeric A}
    (df fdf : DataFrame A) region category date_range :
  filtered_df df region category date_range = Ok fdf →
  StronglySorted Z.lt (sales_time fdf).*1
  ∧ NoDup (sales_time fdf).*1
  ∧ (∀ d, d ∈ (sales_time fdf).*1 ↔ ∃ r, r ∈ fdf ∧ Order_Date r = Some d)
  ∧ (Exact A →
       (∀ d s, (d, s) ∈ sales_time fdf →
          s = sum_present (Sales <$> filter (λ r, Order_Date r = Some d) fdf))
       ∧ sum_of (sales_time fdf).*2 = total_sales fdf
       ∧ total_sales fdf = sum_present (Sales <$> fdf)).
Proof.
  intros Hf. split_and!.
  - apply groupby_sum_ascending.
  - apply NoDup_groupby_sum.
  - intros d. rewrite sales_time_dates. unfold col.
    rewrite list_elem_of_fmap. naive_solver.
  - intros EA. split_and!.
    + intros d s [_ ->]%elem_of_groupby_sum.
      unfold sales_on, rows_on, col.
      by rewrite <- col_sum_sum_present, col_sum_dropna.
    + unfold sales_time, total_sales. rewrite <- asum_sum_of.
      apply groupby_sum_total. by eapply filtered_df_has_date.
    + unfold total_sales, col. apply col_sum_sum_present.
Qed.

Lemma sales_time_table_witness :
  filtered_df ids_df ["East"; "West"] ["Food"; "Toys"] [date 18628; date 18992] = Ok ids_df
  ∧ sales_time ids_df = [(date 18632, 10%Z); (date 18633, 20%Z); (date 18659, 12%Z)]
  ∧ total_sales ids_df = 42%Z
  ∧ StronglySorted Z.lt (sales_time ids_df).*1
  ∧ NoDup (sales_time ids_df).*1
  ∧ (∀ d, d ∈ (sales_time ids_df).*1 ↔ ∃ r, r ∈ ids_df ∧ Order_Date r = Some d)
  ∧ (∀ d s, (d, s) ∈ sales_time ids_df →
       s = sum_present (Sales <$> filter (λ r, Order_Date r = Some d) ids_df))
  ∧ sum_of (sales_time ids_df).*2 = total_sales ids_df
  ∧ total_sales ids_df = sum_present (Sales <$> ids_df).
Proof.
  split; [vm_compute; reflexivity|]. split; [vm_compute; reflexivity|].
  split; [vm_compute; reflexivity|].
  destruct (sales_time_table (NA := Z_Numeric) ids_df ids_df
              ["East"; "West"] ["Food"; "Toys"] [date 18628; date 18992])
    as (Hasc & Hnd & Hdates & Hsum); [vm_compute; reflexivity|].
  destruct (Hsum Z_Exact) as (Hrows & Htot & Hkpi).
  split_and!; [exact Hasc|exact Hnd|exact Hdates|exact Hrows|exact Htot|exact Hkpi].
Defined.

(** On a float64 column every addition rounds.  The default selection
    keeps the three records of [float_df]; the KPI adds 10.1, 5.3 and
    19.99 in row order, the table adds 10.1 and 19.99 first. *)
#[warnings="-inexact-float"]
Example float_df_total_sales : total_sales float_df = 35.39%float.
Proof. vm_compute. reflexivity. Qed.

#[warnings="-inexact-float"]
Example float_df_sales_time :
  sales_time float_df = [(date 18632, 30.089999999999996%float); (date 18633, 5.3%float)]
  ∧ asum (sales_time float_df).*2 = 35.38999999999999%float
  ∧ sum_of (sales_time float_df).*2 = 35.38999999999999%float.
Proof. split_and!; vm_compute; reflexivity. Qed.

(** C5, as stated, fails on a float64 Sales column: the rows of the table
    do not add up to the total-sales KPI. *)
Lemma float_sales_time_total_differs :
  filtered_df float_df (region_default float_df) (category_default float_df)
    [date 18632; date 18633] = Ok float_df
  ∧ date_range_initial float_df = Ok [date 18632; date 18633]
  ∧ asum (sales_time float_df).*2 ≠ total_sales float_df
  ∧ sum_of (sales_time float_df).*2 ≠ total_sales float_df.
Proof.
  split; [vm_compute; reflexivity|]. split; [vm_compute; reflexivity|].
  split; intros Heq.
  - assert (PrimFloat.eqb (asum (sales_time float_df).*2) (total_sales float_df) = true)
      as Hb by (rewrite Heq; vm_compute; reflexivity).
    vm_compute in Hb. discriminate Hb.
  - assert (PrimFloat.eqb (sum_of (sales_time float_df).*2) (total_sales float_df) = true)
      as Hb by (rewrite Heq; vm_compute; reflexivity).
    vm_compute in Hb. discriminate Hb.
Qed.

(** C6. The order count is the number of distinct Order ID values of the
    filtered frame, the customer count the number of distinct Customer ID
    values, and neither exceeds the number of rows of the frame. *)
Theorem counts_distinct {A} (fdf : DataFrame A) :
  total_orders fdf = distinct (col Order_ID fdf)
  ∧ total_customers fdf = distinct (col Customer_ID fdf)
  ∧ total_orders fdf ≤ length fdf
  ∧ total_customers fdf ≤ length fdf.
Proof.
  unfold total_orders, total_customers. split_and!.
  - apply nunique_distinct.
  - apply nunique_distinct.
  - etrans; [apply nunique_le|]. unfold col. by rewrite length_fmap.
  - etrans; [apply nunique_le|]. unfold col. by rewrite length_fmap.
Qed.

(** On four records with three orders of two customers, one record
    without an Order ID, the counts are 3 and 2. *)
Lemma counts_distinct_witness :
  total_orders ids_df = 3 ∧ total_customers ids_df = 2 ∧ length ids_df = 4
  ∧ total_orders ids_df = distinct (col Order_ID ids_df)
  ∧ total_customers ids_df = distinct (col Customer_ID ids_df)
  ∧ total_orders ids_df ≤ length ids_df
  ∧ total_customers ids_df ≤ length ids_df.
Proof.
  split; [vm_compute; reflexivity|]. split; [vm_compute; reflexivity|].
  split; [reflexivity|]. exact (counts_distinct ids_df).
Defined.

Example ids_df_distinct :
  distinct (col Order_ID ids_df) = 3 ∧ distinct (col Customer_ID ids_df) = 2.
Proof. split; vm_compute; reflexivity. Qed.



(** C9. The filter is monotone: a selection with fewer regions, fewer
    categories and a narrower date range keeps a subsequence of what the
    wider selection keeps. *)
Theorem filtered_df_monotone {A} (df : DataFrame A)
    region region' category category' t0 t0' t1 t1' :
  region ⊆ region' → category ⊆ category' → (t0' ≤ t0)%Z → (t1 ≤ t1')%Z →
  ∃ fdf fdf',
    filtered_df df region category [t0; t1] = Ok fdf
    ∧ filtered_df df region' category' [t0'; t1'] = Ok fdf'
    ∧ fdf `sublist_of` fdf'.
Proof.
  intros Hr Hc Ht0 Ht1. do 2 eexists.
  split; [apply filtered_df_filter|]. split; [apply filtered_df_filter|].
  apply filter_sublist_impl. intros r. by apply selected_mono.
Qed.

Lemma filtered_df_monotone_witness :
  ∃ fdf fdf',
    filtered_df ex_df ["East"] ["Food"] [date 18629; date 18658] = Ok fdf
    ∧ filtered_df ex_df ["East"; "West"] ["Food"; "Toys"] [date 18628; date 18686] = Ok fdf'
    ∧ fdf `sublist_of` fdf'.
Proof.
  apply (filtered_df_monotone ex_df ["East"] ["East"; "West"] ["Food"] ["Food"; "Toys"]
           (date 18629) (date 18628) (date 18658) (date 18686)).
  - compute_done.
  - compute_done.
  - compute_done.
  - compute_done.
Defined.

(** C10, as the code has it.  The state the widgets start in (all regions,
    all categories, and the dates of the earliest and of the latest Order
    Date) selects the whole dataset if and only if every record has an
    Order Date and the latest Order Date has no time of day.  On an empty
    dataset the date widget raises, so there is no selection. *)
Theorem default_selection_identity {A} (df : DataFrame A) :
  (∃ date_range,
     date_range_initial df = Ok date_range
     ∧ filtered_df df (region_default df) (category_default df) date_range = Ok df)
  ↔ Forall (λ r, is_Some (Order_Date r)) df
    ∧ ∃ hi, col_max (col Order_Date df) = Some hi ∧ midnight hi = hi.
Proof.
  unfold date_range_initial. split.
  - intros (dr & Hdr & Hf). simpl in Hdr.
    destruct (col_max (col Order_Date df)) as [hi|] eqn:Hhi;
      [|by destruct (col_min (col Order_Date df))].
    destruct (col_min (col Order_Date df)) as [lo|] eqn:Hlo; [|done].
    injection Hdr as <-. rewrite filtered_df_filter in Hf. injection Hf as Hf.
    apply filter_eq_all in Hf. split.
    + eapply Forall_impl; [exact Hf|]. intros r Hr. by eapply selected_has_date.
    + exists hi. split; [done|].
      apply col_max_elem in Hhi. unfold col in Hhi.
      apply list_elem_of_fmap in Hhi as (r & Hr & Hin).
      eapply Forall_forall in Hf as (_ & _ & Hd); [|exact Hin].
      rewrite <- Hr in Hd. pose proof (midnight_le hi). lia.
  - intros (Hdates & hi & Hhi & Hmid).
    pose proof (col_max_elem _ _ Hhi) as Hin.
    destruct (col_min_max_is_Some _ _ Hin) as [[lo Hlo] _].
    exists [midnight lo; midnight hi]. rewrite Hlo, Hhi. split; [done|].
    rewrite filtered_df_filter. f_equal. apply filter_all.
    apply Forall_forall. intros r Hr.
    eapply Forall_forall in Hdates as [d Hd]; [|done].
    unfold selected, region_default, category_default. rewrite !elem_of_unique, Hd.
    assert (Some d ∈ col Order_Date df)
      by (rewrite <- Hd; by apply list_elem_of_fmap_2).
    split_and!.
    + by apply list_elem_of_fmap_2.
    + by apply list_elem_of_fmap_2.
    + pose proof (midnight_le lo). pose proof (col_min_le _ _ _ Hlo H). lia.
    + rewrite Hmid. by eapply col_max_ge.
Qed.

Lemma default_selection_identity_witness :
  ∃ date_range,
    date_range_initial ex_df = Ok date_range
    ∧ filtered_df ex_df (region_default ex_df) (category_default ex_df) date_range
      = Ok ex_df.
Proof.
  apply (proj2 (default_selection_identity ex_df)). split.
  - repeat constructor; simpl; eauto.
  - exists (date 18659). split; vm_compute; reflexivity.
Defined.

(** C10, as stated, fails on a dataset with an undated record: the default
    date range runs from the earliest to the latest date that is present,
    and the comparison with a missing date is false, so the default
    selection drops the record. *)
Lemma default_selection_drops_undated :
  nat_df ≠ []
  ∧ col_min (col Order_Date nat_df) = Some (date 18632)
  ∧ col_max (col Order_Date nat_df) = Some (date 18632)
  ∧ date_range_initial nat_df = Ok [date 18632; date 18632]
  ∧ filtered_df nat_df (region_default nat_df) (category_default nat_df)
      [date 18632; date 18632] = Ok (take 1 nat_df)
  ∧ take 1 nat_df ≠ nat_df.
Proof.
  split; [discriminate|]. split; [vm_compute; reflexivity|].
  split; [vm_compute; reflexivity|]. split; [vm_compute; reflexivity|].
  split; [vm_compute; reflexivity|]. discriminate.
Qed.

(** A record dated after midnight on the last day is dropped too: the date
    widget hands back the date of the latest Order Date, and the selection
    compares with its midnight. *)
Example default_selection_drops_last_day :
  col_max (col Order_Date tod_df) = Some (date 18633 + 46800000000000)%Z
  ∧ date_range_initial tod_df = Ok [date 18632; date 18633]
  ∧ filtered_df tod_df (region_default tod_df) (category_default tod_df)
      [date 18632; date 18633] = Ok (take 1 tod_df).
Proof. split_and!; vm_compute; reflexivity. Qed.

(** On an empty dataset the earliest and the latest Order Date are NaT and
    the date widget raises. *)
Example date_range_initial_empty :
  date_range_initial ([] : DataFrame Z) = Raise ValueError.
Proof. reflexivity. Qed.

(** * Further properties of the script *)

(** ** The selection (lines 86-91) *)

(** X1. The selection raises IndexError exactly when the date widget
    handed back fewer than two dates (a range under selection); the run
    then ends with that exception. *)
Theorem filtered_df_raises_iff {A} {NA : Numeric A} (df : DataFrame A)
    region category date_range :
  (filtered_df df region category date_range = Raise IndexError
   ↔ length date_range < 2)
  ∧ (computeView region category date_range df = (Raise IndexError, df)
     ↔ length date_range < 2).
Proof.
  rewrite computeView_unfold.
  destruct date_range as [|t0 [|t1 rest]]; simpl.
  - split; (split; [lia|done]).
  - split; (split; [lia|done]).
  - change (filtered_df df region category (t0 :: t1 :: rest))
      with (filtered_df df region category [t0; t1]).
    rewrite filtered_df_filter. split; (split; [done|lia]).
Qed.

(** X2. Selecting again with the same widgets changes nothing: the
    selection of a filtered frame is that frame. *)
Theorem filtered_df_idempotent {A} (df fdf : DataFrame A) region category date_range :
  filtered_df df region category date_range = Ok fdf →
  filtered_df fdf region category date_range = Ok fdf.
Proof.
  intros (t0 & t1 & rest & -> & ->)%filtered_df_Ok_inv.
  change (filtered_df (filter (selected region category t0 t1) df)
            region category (t0 :: t1 :: rest))
    with (filtered_df (filter (selected region category t0 t1) df)
            region category [t0; t1]).
  rewrite filtered_df_filter. f_equal.
  apply list_filter_filter_l. done.
Qed.

Lemma filtered_df_idempotent_witness :
  filtered_df ex_df ["East"] ["Food"; "Toys"] [date 18628; date 18658] = Ok (take 1 ex_df)
  ∧ filtered_df (take 1 ex_df) ["East"] ["Food"; "Toys"] [date 18628; date 18658]
    = Ok (take 1 ex_df).
Proof.
  split; [vm_compute; reflexivity|].
  apply (filtered_df_idempotent ex_df (take 1 ex_df) ["East"] ["Food"; "Toys"]
           [date 18628; date 18658]).
  vm_compute; reflexivity.
Defined.

(** X3. Two selections in a row are one selection: selecting with a second
    state of the widgets in the result of a first is selecting once with
    the regions and the categories common to both and the intersection of
    the two date ranges, and the order of the two selections does not
    matter. *)
Theorem filtered_df_compose {A} (df : DataFrame A) r1 c1 a1 b1 r2 c2 a2 b2 :
  ∃ f1 f2 f12,
    filtered_df df r1 c1 [a1; b1] = Ok f1
    ∧ filtered_df df r2 c2 [a2; b2] = Ok f2
    ∧ filtered_df f1 r2 c2 [a2; b2] = Ok f12
    ∧ filtered_df f2 r1 c1 [a1; b1] = Ok f12
    ∧ filtered_df df (filter (.∈ r2) r1) (filter (.∈ c2) c1)
        [Z.max a1 a2; Z.min b1 b2] = Ok f12.
Proof.
  do 3 eexists. rewrite !filtered_df_filter.
  split; [done|]. split; [done|]. split; [done|].
  rewrite !list_filter_filter. split; f_equal; apply list_filter_iff;
    intros r; unfold selected; rewrite ?list_elem_of_filter;
    destruct (Order_Date r); intuition lia.
Qed.

(** X4. The selection goes row by row: on two frames put end to end it is
    the two selections put end to end. *)
Theorem filtered_df_app {A} (df1 df2 : DataFrame A) region category t0 t1 :
  ∃ f1 f2,
    filtered_df df1 region category [t0; t1] = Ok f1
    ∧ filtered_df df2 region category [t0; t1] = Ok f2
    ∧ filtered_df (df1 ++ df2) region category [t0; t1] = Ok (f1 ++ f2).
Proof.
  do 2 eexists. rewrite !filtered_df_filter.
  split; [done|]. split; [done|]. by rewrite filter_app.
Qed.

(** X5. Only the set of chosen regions and the set of chosen categories
    count: the order in which they were picked and a value picked twice
    make no difference. *)
Theorem filtered_df_selection_set {A} (df : DataFrame A)
    region region' category category' date_range :
  (∀ x, x ∈ region ↔ x ∈ region') →
  (∀ x, x ∈ category ↔ x ∈ category') →
  filtered_df df region category date_range
  = filtered_df df region' category' date_range.
Proof.
  intros Hr Hc. destruct date_range as [|t0 [|t1 rest]]; [done..|].
  change (filtered_df df region category (t0 :: t1 :: rest))
    with (filtered_df df region category [t0; t1]).
  change (filtered_df df region' category' (t0 :: t1 :: rest))
    with (filtered_df df region' category' [t0; t1]).
  rewrite !filtered_df_filter. f_equal. apply list_filter_iff.
  intros r. unfold selected. by rewrite Hr, Hc.
Qed.

Lemma filtered_df_selection_set_witness :
  filtered_df ex_df ["East"; "West"] ["Food"] [date 18628; date 18658]
  = filtered_df ex_df ["West"; "East"; "West"] ["Food"; "Food"] [date 18628; date 18658].
Proof.
  apply (filtered_df_selection_set ex_df ["East"; "West"] ["West"; "East"; "West"]
           ["Food"] ["Food"; "Food"] [date 18628; date 18658]).
  - intros x. rewrite !elem_of_cons, !elem_of_nil. tauto.
  - intros x. rewrite !elem_of_cons, !elem_of_nil. tauto.
Defined.

(** X6. With the region and category widgets in their initial state (all
    values of the dataset) the selection is the date filter alone: it keeps
    exactly the rows dated within the range. *)
Theorem filtered_df_default_labels {A} (df : DataFrame A) t0 t1 :
  filtered_df df (region_default df) (category_default df) [t0; t1]
  = Ok (filter (in_range t0 t1) df).
Proof.
  rewrite filtered_df_filter. f_equal.
  assert (∀ l : DataFrame A, l ⊆ df →
    filter (selected (region_default df) (category_default df) t0 t1) l
    = filter (in_range t0 t1) l) as Hl.
  { induction l as [|r l IH]; intros Hsub; [done|].
    rewrite !filter_cons, IH by set_solver.
    assert (r ∈ df) as Hr by set_solver.
    assert (selected (region_default df) (category_default df) t0 t1 r
            ↔ in_range t0 t1 r) as Hiff.
    { unfold selected, in_range, region_default, category_default.
      rewrite !elem_of_unique. split; [tauto|]. intros Hd.
      split_and!; [by apply list_elem_of_fmap_2..|done]. }
    repeat case_decide; tauto. }
  by apply Hl.
Qed.

(** ** The widgets' initial state (lines 68-83) *)

Section Unique.
Context `{Countable B}.
Implicit Types (c : list B) (seen : gset B).

Lemma unique_from_sublist seen c : unique_from seen c `sublist_of` c.
Proof.
  revert seen. induction c as [|x c IH]; intros seen; simpl; [done|].
  case_decide; [apply sublist_cons, IH|apply sublist_skip, IH].
Qed.

(** Values seen before the pass are the values filtered out after it. *)
Lemma unique_from_union S seen c :
  unique_from (S ∪ seen) c = filter (.∉ S) (unique_from seen c).
Proof.
  revert seen. induction c as [|x c IH]; intros seen; simpl; [done|].
  destruct (decide (x ∈ seen)) as [Hx|Hx].
  - rewrite decide_True by set_solver. apply IH.
  - destruct (decide (x ∈ S)) as [HS|HS].
    + rewrite decide_True by set_solver.
      rewrite filter_cons_False by (intros Hn; by apply Hn).
      rewrite <- IH. f_equal. set_solver.
    + rewrite decide_False by set_solver.
      rewrite filter_cons_True by done.
      rewrite <- IH. do 2 f_equal. set_solver.
Qed.

Lemma unique_from_app seen c c' :
  unique_from seen (c ++ c')
  = unique_from seen c ++ unique_from (list_to_set c ∪ seen) c'.
Proof.
  revert seen. induction c as [|x c IH]; intros seen; simpl.
  - f_equal. set_solver.
  - case_decide; rewrite IH; simpl.
    + do 2 f_equal. set_solver.
    + do 3 f_equal. set_solver.
Qed.

Lemma unique_app c c' :
  unique (c ++ c') = unique c ++ filter (.∉ c) (unique c').
Proof.
  unfold unique. rewrite unique_from_app, unique_from_union. f_equal.
  apply list_filter_iff. intros x. by rewrite elem_of_list_to_set.
Qed.
End Unique.

(** X7. The options of the region widget are the regions of the dataset,
    each once, in the order the dataset has them; the same holds for the
    categories. *)
Theorem default_options {A} (df : DataFrame A) :
  NoDup (region_default df)
  ∧ (∀ x, x ∈ region_default df ↔ ∃ r, r ∈ df ∧ Region r = x)
  ∧ region_default df `sublist_of` col Region df
  ∧ NoDup (category_default df)
  ∧ (∀ x, x ∈ category_default df ↔ ∃ r, r ∈ df ∧ Category r = x)
  ∧ category_default df `sublist_of` col Category df.
Proof.
  unfold region_default, category_default, col. split_and!.
  - apply NoDup_unique_from.
  - intros x. rewrite (elem_of_unique (Region <$> df)), list_elem_of_fmap. naive_solver.
  - apply unique_from_sublist.
  - apply NoDup_unique_from.
  - intros x. rewrite (elem_of_unique (Category <$> df)), list_elem_of_fmap. naive_solver.
  - apply unique_from_sublist.
Qed.

(** X8. Rows added at the end of the dataset leave the options of the two
    widgets in place: the labels that are new come after them, in order of
    first appearance. *)
Theorem default_options_app {A} (df1 df2 : DataFrame A) :
  region_default (df1 ++ df2)
  = region_default df1 ++ filter (.∉ col Region df1) (region_default df2)
  ∧ category_default (df1 ++ df2)
    = category_default df1 ++ filter (.∉ col Category df1) (category_default df2).
Proof.
  unfold region_default, category_default, col.
  rewrite !fmap_app. split; apply unique_app.
Qed.

(** X9. The initial date range is missing exactly when no record has an
    Order Date; otherwise it runs from a date of the dataset to a date of
    the dataset, the first not after the second, and every Order Date of
    the dataset lies within it. *)
Theorem date_range_default_spec {A} (df : DataFrame A) :
  (date_range_default df = None ↔ ∀ r, r ∈ df → Order_Date r = None)
  ∧ ∀ dr, date_range_default df = Some dr →
      ∃ lo hi, dr = [lo; hi] ∧ (lo ≤ hi)%Z
        ∧ Some lo ∈ col Order_Date df ∧ Some hi ∈ col Order_Date df
        ∧ ∀ d, Some d ∈ col Order_Date df → (lo ≤ d ∧ d ≤ hi)%Z.
Proof.
  unfold date_range_default. split.
  - split.
    + intros Hnone r Hr.
      destruct (Order_Date r) as [d|] eqn:Hd; [|done].
      assert (Some d ∈ col Order_Date df) as Hin
        by (rewrite <- Hd; by apply list_elem_of_fmap_2).
      destruct (col_min_max_is_Some _ _ Hin) as [[lo Hlo] [hi Hhi]].
      rewrite Hlo, Hhi in Hnone. done.
    + intros Hall.
      assert (dropna (col Order_Date df) = []) as Hnil.
      { apply dropna_nil_iff. intros x (r & -> & Hr)%list_elem_of_fmap. by apply Hall. }
      unfold col_min. by rewrite Hnil.
  - intros dr Hdr.
    destruct (col_min (col Order_Date df)) as [lo|] eqn:Hlo; [|done].
    destruct (col_max (col Order_Date df)) as [hi|] eqn:Hhi; [|done].
    injection Hdr as <-. exists lo, hi.
    pose proof (col_min_elem _ _ Hlo) as Hlo_in.
    pose proof (col_max_elem _ _ Hhi) as Hhi_in.
    split_and!; [done| |done|done|].
    + by eapply col_max_ge.
    + intros d Hd. split; [by eapply col_min_le|by eapply col_max_ge].
Qed.

(** ** The KPIs (lines 96-99) *)

Lemma nunique_mono `{Countable B} (c c' : list (option B)) :
  (∀ x, Some x ∈ c → Some x ∈ c') → nunique c ≤ nunique c'.
Proof.
  intros Hsub. rewrite !nunique_distinct. unfold distinct.
  apply subseteq_size. intros [x|];
    rewrite !elem_of_difference, !elem_of_list_to_set.
  - intros [Hx Hn]. split; [by apply Hsub|done].
  - intros [_ Hn]. exfalso. apply Hn. by apply elem_of_singleton.
Qed.

Lemma col_elem_of_mono {A C} (f : row A → C) (df df' : DataFrame A) x :
  df ⊆ df' → x ∈ col f df → x ∈ col f df'.
Proof.
  unfold col. intros Hsub (r & -> & Hr)%list_elem_of_fmap.
  apply list_elem_of_fmap_2. by apply Hsub.
Qed.


(** X11. Narrowing the selection (fewer regions, fewer categories, a
    narrower date range) never raises the number of rows, the order count
    or the customer count. *)
Theorem counts_monotone {A} (df : DataFrame A)
    region region' category category' t0 t0' t1 t1' :
  region ⊆ region' → category ⊆ category' → (t0' ≤ t0)%Z → (t1 ≤ t1')%Z →
  ∃ fdf fdf',
    filtered_df df region category [t0; t1] = Ok fdf
    ∧ filtered_df df region' category' [t0'; t1'] = Ok fdf'
    ∧ length fdf ≤ length fdf'
    ∧ total_orders fdf ≤ total_orders fdf'
    ∧ total_customers fdf ≤ total_customers fdf'.
Proof.
  intros Hr Hc Ht0 Ht1. do 2 eexists.
  split; [apply filtered_df_filter|]. split; [apply filtered_df_filter|].
  assert (filter (selected region category t0 t1) df
          `sublist_of` filter (selected region' category' t0' t1') df) as Hsub.
  { apply filter_sublist_impl. intros r. by apply selected_mono. }
  split; [by apply sublist_length|].
  apply sublist_subseteq in Hsub.
  unfold total_orders, total_customers.
  split; apply nunique_mono; intros x; by apply col_elem_of_mono.
Qed.

Lemma counts_monotone_witness :
  ∃ fdf fdf',
    filtered_df ex_df ["East"] ["Food"] [date 18629; date 18658] = Ok fdf
    ∧ filtered_df ex_df ["East"; "West"] ["Food"; "Toys"] [date 18628; date 18686] = Ok fdf'
    ∧ length fdf ≤ length fdf'
    ∧ total_orders fdf ≤ total_orders fdf'
    ∧ total_customers fdf ≤ total_customers fdf'.
Proof.
  apply (counts_monotone ex_df ["East"] ["East"; "West"] ["Food"] ["Food"; "Toys"]
           (date 18629) (date 18628) (date 18658) (date 18686)).
  - compute_done.
  - compute_done.
  - compute_done.
  - compute_done.
Defined.




(** X13. Neither the counts nor, on a dtype with exact addition, the
    total and the line chart depend on the order of the rows: two frames
    with the same rows in a different order have the same order and
    customer counts on every dtype, and with exact addition the same
    total-sales KPI and the same table of sales per date. *)
Theorem kpis_Permutation {A} {NA : Numeric A} (fdf fdf' : DataFrame A) :
  fdf ≡ₚ fdf' →
  total_orders fdf = total_orders fdf'
  ∧ total_customers fdf = total_customers fdf'
  ∧ (Exact A →
       total_sales fdf = total_sales fdf'
       ∧ sales_time fdf = sales_time fdf').
Proof.
  intros Hp.
  assert (∀ (f : row A → option string), nunique (col f fdf) = nunique (col f fdf')) as Hn.
  { intros f. apply Nat.le_antisymm; apply nunique_mono; intros x; unfold col;
      [by rewrite Hp|by rewrite <- Hp]. }
  split; [apply Hn|]. split; [apply Hn|]. intros EA. split.
  - apply col_sum_Permutation. unfold col. by rewrite Hp.
  - unfold sales_time, groupby_sum. by rewrite (groups_Permutation fdf fdf').
Qed.

Lemma kpis_Permutation_witness :
  ex_df ≡ₚ reverse ex_df
  ∧ total_orders ex_df = total_orders (reverse ex_df)
  ∧ total_customers ex_df = total_customers (reverse ex_df)
  ∧ total_sales ex_df = total_sales (reverse ex_df)
  ∧ sales_time ex_df = sales_time (reverse ex_df).
Proof.
  assert (ex_df ≡ₚ reverse ex_df) as Hp by (symmetry; apply reverse_Permutation).
  split; [exact Hp|].
  destruct (kpis_Permutation (NA := Z_Numeric) ex_df (reverse ex_df) Hp)
    as (Ho & Hc & Hex).
  destruct (Hex Z_Exact) as (Ht & Hs).
  split_and!; assumption.
Defined.

(** X14. The mask the script indexes the frame with has one entry per row
    of the frame, true exactly at the rows that meet the three conditions:
    the boolean indexing is always applied to a mask of the right length. *)
Theorem mask_rows {A} (df : DataFrame A) region category t0 t1 :
  isin (col Region df) region &&& isin (col Category df) category
    &&& ge_ts (col Order_Date df) t0 &&& le_ts (col Order_Date df) t1
  = (λ r, bool_decide (selected region category t0 t1 r)) <$> df
  ∧ length (isin (col Region df) region &&& isin (col Category df) category
            &&& ge_ts (col Order_Date df) t0 &&& le_ts (col Order_Date df) t1)
    = length df.
Proof.
  assert (isin (col Region df) region &&& isin (col Category df) category
            &&& ge_ts (col Order_Date df) t0 &&& le_ts (col Order_Date df) t1
          = (λ r, bool_decide (selected region category t0 t1 r)) <$> df) as Hm.
  { induction df as [|r df IH]; [reflexivity|].
    unfold isin, ge_ts, le_ts, mask_and, col in *. csimpl. rewrite IH. f_equal.
    destruct (decide (selected region category t0 t1 r)) as [Hs|Hs].
    - rewrite (bool_decide_eq_true_2 _ Hs). unfold selected in Hs.
      destruct (Order_Date r) as [d|]; [|tauto].
      rewrite !bool_decide_eq_true_2 by tauto. done.
    - rewrite (bool_decide_eq_false_2 _ Hs). unfold selected in Hs.
      destruct (Order_Date r) as [d|]; repeat case_bool_decide; simpl;
        try reflexivity; exfalso; tauto. }
  split; [exact Hm|]. by rewrite Hm, length_fmap.
Qed.

(** ** The table of the line chart (line 116) *)


(** X15. The table of the line chart has as many rows as the frame has
    distinct Order Dates, never more than the frame has rows. *)
Theorem sales_time_length {A} {NA : Numeric A} (fdf : DataFrame A) :
  length (sales_time fdf) = distinct (col Order_Date fdf)
  ∧ length (sales_time fdf) ≤ length fdf.
Proof.
  assert (length (sales_time fdf) = distinct (col Order_Date fdf)) as Hlen.
  { rewrite <- (length_fmap fst (sales_time fdf)). symmetry.
    apply distinct_NoDup; [apply NoDup_groupby_sum|].
    intros d. apply sales_time_dates. }
  split; [done|]. rewrite Hlen, <- nunique_distinct.
  etrans; [apply nunique_le|]. unfold col. by rewrite length_fmap.
Qed.

(** X16. The first row of the table is the earliest Order Date of the
    frame and its last row the latest: the line chart spans exactly the
    dates between [Series.min()] and [Series.max()] of the frame. *)
Theorem sales_time_span {A} {NA : Numeric A} (fdf : DataFrame A) :
  head (sales_time fdf).*1 = col_min (col Order_Date fdf)
  ∧ last (sales_time fdf).*1 = col_max (col Order_Date fdf).
Proof.
  pose proof (groupby_sum_ascending fdf) as Hs.
  pose proof (sales_time_dates fdf) as Hd.
  unfold sales_time in *. split.
  - destruct ((groupby_sum fdf).*1) as [|k K] eqn:HK; simpl.
    + symmetry. unfold col_min.
      destruct (dropna (col Order_Date fdf)) as [|x xs] eqn:Hx; [done|].
      assert (x ∈ @nil Z) as Hin
        by (apply Hd, elem_of_dropna; rewrite Hx; apply list_elem_of_here).
      by apply elem_of_nil in Hin.
    + assert (Some k ∈ col Order_Date fdf) as Hk by (apply Hd, list_elem_of_here).
      destruct (col_min_max_is_Some _ _ Hk) as [[lo Hlo] _].
      rewrite Hlo. f_equal.
      assert (lo ≤ k)%Z by (by eapply col_min_le).
      assert (k ≤ lo)%Z; [|lia].
      eapply StronglySorted_lt_head; [done|]. by apply Hd, col_min_elem.
  - destruct (last (groupby_sum fdf).*1) as [k|] eqn:HK.
    + apply last_Some in HK as [K HK]. rewrite HK in Hs, Hd.
      assert (Some k ∈ col Order_Date fdf) as Hk
        by (apply Hd, elem_of_app; right; apply list_elem_of_here).
      destruct (col_min_max_is_Some _ _ Hk) as [_ [hi Hhi]].
      rewrite Hhi. f_equal.
      assert (k ≤ hi)%Z by (by eapply col_max_ge).
      assert (hi ≤ k)%Z; [|lia].
      eapply StronglySorted_lt_last; [done|]. by apply Hd, col_max_elem.
    + apply last_None in HK. rewrite HK in Hd.
      symmetry. unfold col_max.
      destruct (dropna (col Order_Date fdf)) as [|x xs] eqn:Hx; [done|].
      assert (x ∈ @nil Z) as Hin
        by (apply Hd, elem_of_dropna; rewrite Hx; apply list_elem_of_here).
      by apply elem_of_nil in Hin.
Qed.

(** X17. What the charts show stays within the selection: every date of
    the line chart lies in the chosen date range, every bar belongs to a
    chosen category and every point of the scatter plot to a chosen
    region. *)
Theorem charts_within_selection {A} {NA : Numeric A} (df fdf : DataFrame A)
    region category t0 t1 :
  filtered_df df region category [t0; t1] = Ok fdf →
  (∀ d s, (d, s) ∈ sales_time fdf → (t0 ≤ d ∧ d ≤ t1)%Z)
  ∧ (∀ p, p ∈ fig_bar fdf → p.1 ∈ category)
  ∧ (∀ p, p ∈ fig_scatter fdf → p.2 ∈ region).
Proof.
  rewrite filtered_df_filter. intros [= <-].
  assert (∀ r, r ∈ filter (selected region category t0 t1) df →
               selected region category t0 t1 r) as Hsel
    by (by intros r [? _]%list_elem_of_filter).
  split_and!.
  - intros d s Hds.
    assert (d ∈ (sales_time (filter (selected region category t0 t1) df)).*1) as Hd
      by (by apply (list_elem_of_fmap_2 fst _ (d, s))).
    apply sales_time_dates in Hd. unfold col in Hd.
    apply list_elem_of_fmap in Hd as (r & Hr & Hin).
    apply Hsel in Hin as (_ & _ & Hrange). by rewrite <- Hr in Hrange.
  - intros p (r & -> & Hin)%list_elem_of_fmap. by apply Hsel in Hin as (_ & ? & _).
  - intros p (r & -> & Hin)%list_elem_of_fmap. by apply Hsel in Hin as (? & _).
Qed.

Lemma charts_within_selection_witness :
  filtered_df ex_df ["East"] ["Food"; "Toys"] [date 18628; date 18658] = Ok (take 1 ex_df)
  ∧ (∀ d s, (d, s) ∈ sales_time (take 1 ex_df) → (date 18628 ≤ d ∧ d ≤ date 18658)%Z)
  ∧ (∀ p, p ∈ fig_bar (take 1 ex_df) → p.1 ∈ ["Food"; "Toys"])
  ∧ (∀ p, p ∈ fig_scatter (take 1 ex_df) → p.2 ∈ ["East"]).
Proof.
  split; [vm_compute; reflexivity|].
  apply (charts_within_selection (NA := Z_Numeric) ex_df (take 1 ex_df)
           ["East"] ["Food"; "Toys"] (date 18628) (date 18658)).
  vm_compute; reflexivity.
Defined.

Section Zoom.
Context {A : Type} `{Numeric A}.
Implicit Types (fdf : DataFrame A).

Lemma groupby_sum_sorted fdf : StronglySorted by_key (groupby_sum fdf).
Proof.
  pose proof (by_key_trans (A := A)). pose proof (by_key_total (A := A)).
  apply StronglySorted_merge_sort; apply _.
Qed.

Lemma StronglySorted_filter {B} (R : relation B) (P : B → Prop)
    `{!∀ x, Decision (P x)} (l : list B) :
  StronglySorted R l → StronglySorted R (filter P l).
Proof.
  induction 1 as [|x l Hl IH Hx]; [constructor|].
  rewrite filter_cons. case_decide; [|done].
  constructor; [done|]. apply Forall_forall. intros y [_ Hy]%list_elem_of_filter.
  by eapply Forall_forall in Hx.
Qed.

(** The rows of one date, after a date filter. *)
Lemma rows_on_in_range fdf t0 t1 d :
  rows_on d (filter (in_range t0 t1) fdf)
  = if decide (t0 ≤ d ∧ d ≤ t1)%Z then rows_on d fdf else [].
Proof.
  unfold rows_on. rewrite list_filter_filter. case_decide as Hd.
  - apply list_filter_iff. intros r. unfold in_range. split; [tauto|].
    intros Hr. rewrite Hr. done.
  - apply filter_none. intros r [Hr Hin]. unfold in_range in Hin.
    rewrite Hr in Hin. done.
Qed.

Lemma groupby_sum_in_range fdf t0 t1 :
  groupby_sum (filter (in_range t0 t1) fdf)
  = filter (λ p, (t0 ≤ p.1 ∧ p.1 ≤ t1)%Z) (groupby_sum fdf).
Proof.
  assert (∀ p, p ∈ groupby_sum (filter (in_range t0 t1) fdf)
               ↔ p ∈ filter (λ p, (t0 ≤ p.1 ∧ p.1 ≤ t1)%Z) (groupby_sum fdf)) as Hiff.
  { intros [d s]. rewrite list_elem_of_filter, !elem_of_groupby_sum. simpl.
    unfold sales_on. rewrite rows_on_in_range.
    case_decide; [tauto|]. split; [by intros [? _]|tauto]. }
  apply (StronglySorted_unique_strong by_key).
  - intros [d1 s1] [d2 s2] H1 H2 H12 H21. unfold by_key in *. simpl in *.
    assert (d1 = d2) as -> by lia.
    apply Hiff in H2.
    apply elem_of_groupby_sum in H1 as [_ ->].
    by apply elem_of_groupby_sum in H2 as [_ ->].
  - apply groupby_sum_sorted.
  - apply StronglySorted_filter, groupby_sum_sorted.
  - apply NoDup_Permutation; [| |done].
    + eapply NoDup_fmap_1, NoDup_groupby_sum.
    + apply NoDup_filter. eapply NoDup_fmap_1, NoDup_groupby_sum.
Qed.
End Zoom.

(** X18. Narrowing the date range, with the regions and the categories
    unchanged, only cuts the line chart: the table of the narrower range
    is the table of the wider one restricted to the dates of the narrower
    range, with the same sums.  This holds on every dtype. *)
Theorem sales_time_zoom {A} {NA : Numeric A} (df : DataFrame A)
    region category t0 t0' t1 t1' :
  (t0' ≤ t0)%Z → (t1 ≤ t1')%Z →
  ∃ fdf fdf',
    filtered_df df region category [t0; t1] = Ok fdf
    ∧ filtered_df df region category [t0'; t1'] = Ok fdf'
    ∧ sales_time fdf = filter (λ p, (t0 ≤ p.1 ∧ p.1 ≤ t1)%Z) (sales_time fdf').
Proof.
  intros Ht0 Ht1. do 2 eexists.
  split; [apply filtered_df_filter|]. split; [apply filtered_df_filter|].
  unfold sales_time. rewrite <- groupby_sum_in_range. f_equal.
  rewrite list_filter_filter. apply list_filter_iff.
  intros r. unfold selected, in_range. destruct (Order_Date r); intuition lia.
Qed.

Lemma sales_time_zoom_witness :
  ∃ fdf fdf',
    filtered_df ex_df ["East"; "West"] ["Food"; "Toys"] [date 18633; date 18658] = Ok fdf
    ∧ filtered_df ex_df ["East"; "West"] ["Food"; "Toys"] [date 18628; date 18992] = Ok fdf'
    ∧ sales_time fdf
      = filter (λ p, (date 18633 ≤ p.1 ∧ p.1 ≤ date 18658)%Z) (sales_time fdf').
Proof.
  apply (sales_time_zoom (NA := Z_Numeric) ex_df ["East"; "West"] ["Food"; "Toys"]
           (date 18633) (date 18628) (date 18658) (date 18992)); compute_done.
Defined.
